(** * blogger_agent/config.py: the [ResearchConfiguration] dataclass

    The module declares one class, decorated with [@dataclass] and no
    arguments, holding three fields with defaults, and binds the global
    [config] to an instance built with no arguments.

    The decorator (with its defaults [init=True], [repr=True], [eq=True],
    [frozen=False]) keeps the three defaults as class attributes and
    generates

      def __init__(self, critic_model='gemini-2.5-pro',
                   worker_model='gemini-2.5-flash', max_search_iterations=5):
          self.critic_model = critic_model
          self.worker_model = worker_model
          self.max_search_iterations = max_search_iterations

      def __eq__(self, other):
          if other.__class__ is self.__class__:
              return (self.critic_model, self.worker_model,
                      self.max_search_iterations) ==
                     (other.critic_model, other.worker_model,
                      other.max_search_iterations)
          return NotImplemented

    Instances are ordinary Python objects: an identity and an attribute
    dictionary, read through the instance dictionary first and the class
    attributes second.  Since [frozen] is left [False] no [__setattr__] or
    [__delattr__] guard is generated, so attributes can be assigned and
    deleted.  The text produced by the generated [__repr__] is not
    modelled. *)

From stdpp Require Import gmap strings list fin_maps.
From Stdlib Require Import ZArith Lia.

Set Warnings "-clear-no-such-hyp".

Open Scope Z_scope.
Open Scope string_scope.

(** ** Values and outcomes *)

(** The values the annotations [str] and [int] admit.  Python integers are
    unbounded, hence [Z].  Annotations are not enforced at run time: any
    value may be stored in any field. *)
Inductive value : Type :=
  | VStr (s : string)
  | VInt (n : Z).

(** The annotated type of a value. *)
Inductive pytype : Type := TStr | TInt.

#[global] Instance pytype_eq_dec : EqDecision pytype.
Proof. solve_decision. Defined.

Definition type_of (v : value) : pytype :=
  match v with VStr _ => TStr | VInt _ => TInt end.

(** Python's [==] on these values: strings by content, integers by number,
    a string never equals an integer. *)
Definition value_eqb (a b : value) : bool :=
  match a, b with
  | VStr s, VStr t => bool_decide (s = t)
  | VInt m, VInt n => Z.eqb m n
  | _, _ => false
  end.

(** The exceptions the modelled operations can raise. *)
Inductive exn : Type :=
  | TypeError
  | AttributeError.

Inductive result (A : Type) : Type :=
  | Ok (a : A)
  | Raise (e : exn).
Arguments Ok {A} a.
Arguments Raise {A} e.

(** ** The class *)

(** Field names, in declaration order (lines 18 to 20). *)
Definition critic_model : string := "critic_model".
Definition worker_model : string := "worker_model".
Definition max_search_iterations : string := "max_search_iterations".

Definition fields : list string :=
  [critic_model; worker_model; max_search_iterations].

(** The annotation of each field. *)
Definition annotation : gmap string pytype :=
  {[ critic_model := TStr;
     worker_model := TStr;
     max_search_iterations := TInt ]}.

(** The class attributes left by the class body: the three defaults. *)
Definition class_attrs : gmap string value :=
  {[ critic_model := VStr "gemini-2.5-pro";
     worker_model := VStr "gemini-2.5-flash";
     max_search_iterations := VInt 5 ]}.

(** ** Objects, heap and process state *)

(** An instance is its attribute dictionary ([__dict__]). *)
Abbreviation obj := (gmap string value).

(** Object identities are positions in the heap; objects are never freed. *)
Abbreviation loc := nat.

(** What lies outside the interpreter's objects: the process environment,
    the file system and the traffic sent to the network. *)
Record world : Type := World {
  environ : gmap string string;
  files : gmap string string;
  network : list string
}.

Record state : Type := State {
  heap : list obj;
  globals : gmap string loc;
  outside : world
}.

Definition set_heap (h : list obj) (s : state) : state :=
  State h (globals s) (outside s).

Definition set_global (x : string) (r : loc) (s : state) : state :=
  State (heap s) (<[x := r]> (globals s)) (outside s).

(** ** Calling the class *)

(** A call site: positional arguments and keyword arguments, in order. *)
Record call : Type := Call {
  args : list value;
  kwargs : list (string * value)
}.

(** Positional arguments are matched with the parameters after [self] in
    declaration order; more than three raise [TypeError]. *)
Definition bind_positional (a : list value) : result (gmap string value) :=
  if decide (length a ≤ length fields)%nat
  then Ok (list_to_map (zip fields a))
  else Raise TypeError.

(** Keyword arguments: an unknown name raises [TypeError] (unexpected
    keyword argument), and so does a parameter that already has a value
    (multiple values for argument). *)
Fixpoint bind_keywords (kws : list (string * value)) (b : gmap string value)
  : result (gmap string value) :=
  match kws with
  | [] => Ok b
  | (k, v) :: rest =>
      if decide (k ∈ fields) then
        match b !! k with
        | Some _ => Raise TypeError
        | None => bind_keywords rest (<[k := v]> b)
        end
      else Raise TypeError
  end.

Definition bind (c : call) : result (gmap string value) :=
  match bind_positional (args c) with
  | Ok b => bind_keywords (kwargs c) b
  | Raise e => Raise e
  end.

(** The value a parameter takes in the body of [__init__]: the bound
    argument, or the default of the signature (the class attribute). *)
Definition parameter (b : gmap string value) (f : string) : option value :=
  match b !! f with
  | Some v => Some v
  | None => class_attrs !! f
  end.

(** [self.f = f], for one field. *)
Definition assign_field (b : gmap string value) (self : obj) (f : string) : obj :=
  match parameter b f with
  | Some v => <[f := v]> self
  | None => self
  end.

(** The body of the generated [__init__]: the three assignments, in
    declaration order. *)
Definition init (b : gmap string value) (self : obj) : obj :=
  foldl (assign_field b) self fields.

(** Calling [ResearchConfiguration] with a call site: bind the arguments, allocate
    a fresh instance with an empty dictionary, run [__init__] on it.  A
    failed binding raises before anything is allocated. *)
Definition ResearchConfiguration (c : call) (s : state) : result loc * state :=
  match bind c with
  | Ok b => (Ok (length (heap s)), set_heap (heap s ++ [init b ∅]) s)
  | Raise e => (Raise e, s)
  end.

(** ** Attribute access *)

(** [r.name]: the instance dictionary first, then the class attributes; a
    name found in neither raises [AttributeError].  An identity beyond the
    heap denotes no object (no Python reference is ever such); reading it is
    given the same outcome. *)
Definition getattr (s : state) (r : loc) (name : string) : result value :=
  match heap s !! r with
  | Some o =>
      match o !! name with
      | Some v => Ok v
      | None =>
          match class_attrs !! name with
          | Some v => Ok v
          | None => Raise AttributeError
          end
      end
  | None => Raise AttributeError
  end.

(** The instance dictionary entry of an attribute, without the class. *)
Definition instance_attr (s : state) (r : loc) (name : string) : option value :=
  heap s !! r ≫= (.!! name).

(** [r.name = v]: no [__setattr__] guard and no [__slots__], so the
    instance dictionary is updated whatever the name. *)
Definition setattr (r : loc) (name : string) (v : value) (s : state)
  : result unit * state :=
  match heap s !! r with
  | Some o => (Ok tt, set_heap (<[r := <[name := v]> o]> (heap s)) s)
  | None => (Raise AttributeError, s)
  end.

(** [del r.name]: removes the entry of the instance dictionary; a name the
    instance dictionary lacks raises [AttributeError]. *)
Definition delattr (r : loc) (name : string) (s : state)
  : result unit * state :=
  match heap s !! r with
  | Some o =>
      match o !! name with
      | Some _ => (Ok tt, set_heap (<[r := delete name o]> (heap s)) s)
      | None => (Raise AttributeError, s)
      end
  | None => (Raise AttributeError, s)
  end.

(** ** Equality *)

(** The tuple of the three fields, as [__eq__] reads it. *)
Definition astuple (s : state) (r : loc) : result (list value) :=
  match getattr s r critic_model, getattr s r worker_model,
        getattr s r max_search_iterations with
  | Ok c, Ok w, Ok n => Ok [c; w; n]
  | _, _, _ => Raise AttributeError
  end.

(** Tuple comparison: element by element. *)
Fixpoint tuple_eqb (x y : list value) : bool :=
  match x, y with
  | [], [] => true
  | a :: x', b :: y' => value_eqb a b && tuple_eqb x' y'
  | _, _ => false
  end.

(** [a == b] for two instances of the class (the class test of the
    generated [__eq__] succeeds, both being [ResearchConfiguration]). *)
Definition eq (s : state) (a b : loc) : result bool :=
  match astuple s a, astuple s b with
  | Ok x, Ok y => Ok (tuple_eqb x y)
  | _, _ => Raise AttributeError
  end.

(** ** The module body *)

(** The global name bound on line 23. *)
Definition config : string := "config".

(** Executing the module: the class statement allocates no instance; line
    23 calls the class with no argument and binds [config] to the result. *)
Definition no_arguments : call := Call [] [].

Definition module_body (s : state) : state :=
  match ResearchConfiguration no_arguments s with
  | (Ok r, s') => set_global config r s'
  | (Raise _, s') => s'
  end.

(** An outside world with no variable, no file and no traffic. *)
Definition empty_world : world := World ∅ ∅ [].

(** A fresh interpreter in a given outside world. *)
Definition fresh_process (w : world) : state := State [] ∅ w.

Definition imported (w : world) : state := module_body (fresh_process w).

(** ** Operations of a client *)

(** What client code can do with the class and its instances. *)
Inductive op : Type :=
  | New (c : call)
  | GetAttr (r : loc) (name : string)
  | SetAttr (r : loc) (name : string) (v : value)
  | DelAttr (r : loc) (name : string)
  | Compare (a b : loc).

Inductive outcome : Type :=
  | Created (x : result loc)
  | Read (x : result value)
  | Done (x : result unit)
  | Compared (x : result bool).

Definition exec (o : op) (s : state) : outcome * state :=
  match o with
  | New c => let '(x, s') := ResearchConfiguration c s in (Created x, s')
  | GetAttr r name => (Read (getattr s r name), s)
  | SetAttr r name v => let '(x, s') := setattr r name v s in (Done x, s')
  | DelAttr r name => let '(x, s') := delattr r name s in (Done x, s')
  | Compare a b => (Compared (eq s a b), s)
  end.

Definition run (ops : list op) (s : state) : state :=
  foldl (λ s o, (exec o s).2) s ops.

(** The operations that only read: attribute reads and comparisons. *)
Definition reads (o : op) : bool :=
  match o with
  | GetAttr _ _ | Compare _ _ => true
  | _ => false
  end.

(** The operations that write an instance dictionary after construction. *)
Definition writes (o : op) : bool :=
  match o with
  | SetAttr _ _ _ | DelAttr _ _ => true
  | _ => false
  end.


(** The state after the import and one further construction with no
    argument: two holders, at identities 0 and 1. *)
Definition two_holders : state := run [New no_arguments] (imported empty_world).

(** ** Call sites, described *)

(** What a call site supplies for a field: the positional argument at the
    field's position if there is one, else the keyword argument of that
    name. *)
Definition supplied (c : call) (f : string) : option value :=
  match (list_to_map (zip fields (args c)) : gmap string value) !! f with
  | Some v => Some v
  | None => (list_to_map (kwargs c) : gmap string value) !! f
  end.

(** A call site that fits the signature: at most three positional
    arguments, keyword names among the parameters not already taken by a
    positional argument, no keyword twice. *)
Definition well_formed (c : call) : bool :=
  bool_decide (length (args c) ≤ length fields)%nat
  && bool_decide (NoDup (kwargs c).*1)
  && forallb (λ k, bool_decide (k ∈ drop (length (args c)) fields))
       (kwargs c).*1.

(** A value fits a field when its type is the field's annotation. *)
Definition conforms (fv : string * value) : bool :=
  bool_decide (annotation !! fv.1 = Some (type_of fv.2)).

(** A well-typed call site: it fits the signature and every argument has
    the annotated type of its parameter. *)
Definition well_typed (c : call) : bool :=
  well_formed c
  && forallb conforms (zip fields (args c))
  && forallb conforms (kwargs c).

(** ** Call sites used below *)

(** The call sites that override all three fields, by keyword. *)
Definition keyword_call (cm wm : string) (n : Z) : call :=
  Call [] [(critic_model, VStr cm); (worker_model, VStr wm);
           (max_search_iterations, VInt n)].

(** [ResearchConfiguration(max_search_iterations=10)]. *)
Definition ten_iterations_call : call :=
  Call [] [(max_search_iterations, VInt 10)].

(** [ResearchConfiguration("", max_search_iterations=-3)]. *)
Definition empty_negative_call : call :=
  Call [VStr ""] [(max_search_iterations, VInt (-3))].

(** [ResearchConfiguration("critic-x", max_search_iterations=10**30,
    worker_model="")]. *)
Definition mixed_call : call :=
  Call [VStr "critic-x"]
       [(max_search_iterations, VInt 1000000000000000000000000000000);
        (worker_model, VStr "")].

(** The three arguments given by position, in declaration order. *)
Definition positional_call (a b n : value) : call := Call [a; b; n] [].

(** The same three arguments given by keyword, in another order. *)
Definition shuffled_keyword_call (a b n : value) : call :=
  Call [] [(max_search_iterations, n); (critic_model, a); (worker_model, b)].

(** [ResearchConfiguration(worker_model="", max_search_iterations=-3,
    critic_model="critic-x")] and the same with the first argument by
    position. *)
Definition keywords_example : call :=
  Call [] [(worker_model, VStr ""); (max_search_iterations, VInt (-3));
           (critic_model, VStr "critic-x")].

Definition positional_example : call :=
  Call [VStr "critic-x"]
       [(max_search_iterations, VInt (-3)); (worker_model, VStr "")].




(** * Properties *)

(** ** The class attributes and the body of [__init__] *)

Lemma elem_of_fields (f : string) :
  f ∈ fields ↔ f = critic_model ∨ f = worker_model ∨ f = max_search_iterations.
Proof. unfold fields. set_solver. Qed.

(** Closes [f ∈ fields] for a field named in the goal. *)
Ltac in_fields := apply elem_of_fields; auto.

Lemma class_attrs_critic_model :
  class_attrs !! critic_model = Some (VStr "gemini-2.5-pro").
Proof. reflexivity. Qed.

Lemma class_attrs_worker_model :
  class_attrs !! worker_model = Some (VStr "gemini-2.5-flash").
Proof. reflexivity. Qed.

Lemma class_attrs_max_search_iterations :
  class_attrs !! max_search_iterations = Some (VInt 5).
Proof. reflexivity. Qed.

Lemma class_attrs_field (f : string) :
  f ∈ fields → is_Some (class_attrs !! f).
Proof.
  rewrite elem_of_fields. intros [-> | [-> | ->]]; eexists; reflexivity.
Qed.

Lemma fields_distinct :
  critic_model ≠ worker_model ∧ critic_model ≠ max_search_iterations
  ∧ worker_model ≠ max_search_iterations.
Proof. repeat split; discriminate. Qed.

Lemma parameter_field (b : gmap string value) (f : string) :
  f ∈ fields → is_Some (parameter b f).
Proof.
  intros Hf. unfold parameter. destruct (b !! f); [eauto |].
  by apply class_attrs_field.
Qed.

(** [__init__] writes each field with its parameter and nothing else. *)
Lemma init_lookup_field (b : gmap string value) (self : obj) (f : string) :
  f ∈ fields → init b self !! f = parameter b f.
Proof.
  intros Hf. destruct fields_distinct as (Hcw & Hcm & Hwm).
  destruct (parameter_field b critic_model) as [vc Hc]; [set_solver |].
  destruct (parameter_field b worker_model) as [vw Hw]; [set_solver |].
  destruct (parameter_field b max_search_iterations) as [vm Hm]; [set_solver |].
  unfold init, fields. cbn [foldl]. unfold assign_field.
  rewrite Hc, Hw, Hm.
  apply elem_of_fields in Hf as [-> | [-> | ->]].
  - rewrite Hc. do 2 (rewrite lookup_insert_ne by done). by rewrite lookup_insert_eq.
  - rewrite Hw. rewrite lookup_insert_ne by done. by rewrite lookup_insert_eq.
  - rewrite Hm. by rewrite lookup_insert_eq.
Qed.

Lemma init_lookup_other (b : gmap string value) (self : obj) (name : string) :
  name ∉ fields → init b self !! name = self !! name.
Proof.
  intros Hf.
  assert (Hne : name ≠ critic_model ∧ name ≠ worker_model
                ∧ name ≠ max_search_iterations).
  { rewrite elem_of_fields in Hf. naive_solver. }
  destruct Hne as (H1 & H2 & H3).
  unfold init, fields. cbn [foldl]. unfold assign_field.
  repeat match goal with
         | |- context [match parameter ?b ?f with _ => _ end] =>
             destruct (parameter b f)
         end;
    by rewrite ?lookup_insert_ne.
Qed.

(** ** Binding *)

Lemma bind_keywords_lookup (kws : list (string * value))
      (b b' : gmap string value) (f : string) :
  bind_keywords kws b = Ok b' →
  b' !! f = match b !! f with
            | Some v => Some v
            | None => (list_to_map kws : gmap string value) !! f
            end.
Proof.
  revert b. induction kws as [| [k v] rest IH]; intros b Hb; cbn in Hb.
  - injection Hb as <-. by destruct (b !! f).
  - case_decide; [| discriminate].
    destruct (b !! k) eqn:Hk; [discriminate |].
    rewrite (IH _ Hb). cbn [list_to_map foldr uncurry].
    destruct (decide (k = f)) as [-> | Hne].
    + by rewrite Hk, !lookup_insert_eq.
    + by rewrite !lookup_insert_ne.
Qed.

(** A successful binding holds exactly what the call site supplies. *)
Lemma bind_supplied (c : call) (b : gmap string value) (f : string) :
  bind c = Ok b → b !! f = supplied c f.
Proof.
  unfold bind, bind_positional, supplied. case_decide; [| discriminate].
  intros Hb. by rewrite (bind_keywords_lookup _ _ _ f Hb).
Qed.

Lemma bind_keywords_total (kws : list (string * value)) (b : gmap string value) :
  NoDup kws.*1 →
  (∀ k, k ∈ kws.*1 → k ∈ fields ∧ b !! k = None) →
  ∃ b', bind_keywords kws b = Ok b'.
Proof.
  revert b. induction kws as [| [k v] rest IH]; intros b Hnd Hk; cbn.
  - eauto.
  - cbn in Hnd. apply NoDup_cons in Hnd as [Hnotin Hnd].
    destruct (Hk k) as [Hkf Hkb]; [cbn; set_solver |].
    rewrite decide_True by done. rewrite Hkb.
    apply IH; [done |]. intros k' Hk'.
    destruct (Hk k') as [? ?]; [cbn; set_solver |].
    split; [done |]. rewrite lookup_insert_ne; [done |].
    intros ->. done.
Qed.

(** A positional argument never lands on a parameter after the last
    position taken. *)
Lemma positional_lookup_drop (a : list value) (k : string) :
  k ∈ drop (length a) fields →
  (list_to_map (zip fields a) : gmap string value) !! k = None.
Proof.
  intros Hk. apply not_elem_of_list_to_map_1. intros Hin.
  destruct fields_distinct as (? & ? & ?).
  destruct a as [| a0 [| a1 [| a2 a3]]];
    cbn [length drop zip zip_with fields fmap list_fmap fst] in Hk, Hin;
    rewrite ?drop_nil in Hk; set_unfold; naive_solver.
Qed.

(** A call site that fits the signature binds. *)
Lemma well_formed_bind (c : call) :
  well_formed c = true → ∃ b, bind c = Ok b.
Proof.
  unfold well_formed. rewrite !andb_true_iff, !bool_decide_eq_true.
  intros [[Hlen Hnd] Hall]. rewrite forallb_forall in Hall.
  unfold bind, bind_positional. rewrite decide_True by done.
  apply bind_keywords_total; [done |]. intros k Hk.
  assert (Hd : k ∈ drop (length (args c)) fields).
  { apply list_elem_of_In, Hall in Hk. by apply bool_decide_eq_true in Hk. }
  split.
  - eapply (subseteq_drop (length (args c))); done.
  - by apply positional_lookup_drop.
Qed.

(** The binding succeeds only on call sites that fit the signature. *)
Lemma bind_keywords_inv (kws : list (string * value)) (b b' : gmap string value) :
  bind_keywords kws b = Ok b' →
  NoDup kws.*1 ∧ ∀ k, k ∈ kws.*1 → k ∈ fields ∧ b !! k = None.
Proof.
  revert b. induction kws as [| [k v] rest IH]; intros b Hb; cbn in Hb.
  - split; [constructor |]. intros k Hk. cbn in Hk. by apply elem_of_nil in Hk.
  - case_decide as Hkf; [| discriminate].
    destruct (b !! k) eqn:Hk; [discriminate |].
    apply IH in Hb as [Hnd Hrest]. split.
    + cbn. apply NoDup_cons. split; [| done]. intros Hin.
      apply Hrest in Hin as [_ Hin]. by rewrite lookup_insert_eq in Hin.
    + intros k' Hk'. cbn in Hk'. apply elem_of_cons in Hk' as [-> | Hk'].
      * done.
      * apply Hrest in Hk' as [? Hk']. split; [done |].
        by apply lookup_insert_None in Hk' as [? _].
Qed.

Lemma positional_unbound_drop (a : list value) (k : string) :
  (length a ≤ length fields)%nat → k ∈ fields →
  (list_to_map (zip fields a) : gmap string value) !! k = None →
  k ∈ drop (length a) fields.
Proof.
  intros Hlen Hk Hnone.
  apply not_elem_of_list_to_map in Hnone.
  destruct a as [| a0 [| a1 [| a2 [| a3 a4]]]];
    cbn [length drop zip zip_with fields fmap list_fmap fst] in Hlen, Hnone |- *;
    [.. | lia]; set_unfold; naive_solver.
Qed.

Lemma bind_well_formed (c : call) (b : gmap string value) :
  bind c = Ok b → well_formed c = true.
Proof.
  unfold bind, bind_positional. case_decide as Hlen; [| discriminate].
  intros Hb. apply bind_keywords_inv in Hb as [Hnd Hk].
  unfold well_formed. rewrite !andb_true_iff, !bool_decide_eq_true.
  repeat split; [done .. |]. apply forallb_forall. intros k Hin.
  apply list_elem_of_In, Hk in Hin as [? ?]. apply bool_decide_eq_true.
  by apply positional_unbound_drop.
Qed.

(** ** Construction and the heap *)

Lemma construct_bound (c : call) (b : gmap string value) (s : state) :
  bind c = Ok b →
  ResearchConfiguration c s
  = (Ok (length (heap s)), set_heap (heap s ++ [init b ∅]) s).
Proof. intros Hb. unfold ResearchConfiguration. by rewrite Hb. Qed.

Lemma construct_inv (c : call) (s s' : state) (r : loc) :
  ResearchConfiguration c s = (Ok r, s') →
  ∃ b, bind c = Ok b ∧ r = length (heap s)
       ∧ s' = set_heap (heap s ++ [init b ∅]) s.
Proof.
  unfold ResearchConfiguration. destruct (bind c) as [b | e]; [| discriminate].
  intros [= <- <-]. eauto.
Qed.

Lemma getattr_instance (s : state) (r : loc) (name : string) (v : value) :
  instance_attr s r name = Some v → getattr s r name = Ok v.
Proof.
  unfold instance_attr, getattr. destruct (heap s !! r) as [o |]; [| done].
  cbn. by intros ->.
Qed.

Lemma instance_attr_new (h : list obj) (o : obj) (s : state) (name : string) :
  instance_attr (set_heap (h ++ [o]) s) (length h) name = o !! name.
Proof.
  unfold instance_attr, set_heap. cbn [heap].
  by rewrite list_lookup_middle.
Qed.

(** A freshly constructed holder carries each field in its own dictionary,
    with the value the call site supplied or else the default. *)
Lemma constructed_field (c : call) (s s' : state) (r : loc) (f : string) :
  ResearchConfiguration c s = (Ok r, s') → f ∈ fields →
  instance_attr s' r f
  = match supplied c f with Some v => Some v | None => class_attrs !! f end.
Proof.
  intros (b & Hb & -> & ->)%construct_inv Hf.
  rewrite instance_attr_new, init_lookup_field by done.
  unfold parameter. by rewrite (bind_supplied _ _ f Hb).
Qed.

Lemma constructed_supplied (c : call) (s s' : state) (r : loc) (f : string)
      (v : value) :
  ResearchConfiguration c s = (Ok r, s') → f ∈ fields →
  supplied c f = Some v → getattr s' r f = Ok v.
Proof.
  intros Hc Hf Hs. apply getattr_instance.
  by rewrite (constructed_field _ _ _ _ _ Hc Hf), Hs.
Qed.

Lemma constructed_default (c : call) (s s' : state) (r : loc) (f : string)
      (d : value) :
  ResearchConfiguration c s = (Ok r, s') → f ∈ fields →
  supplied c f = None → class_attrs !! f = Some d → getattr s' r f = Ok d.
Proof.
  intros Hc Hf Hs Hd. apply getattr_instance.
  by rewrite (constructed_field _ _ _ _ _ Hc Hf), Hs.
Qed.

(** ** Construction: defaults and overrides *)

(** C1. A holder constructed with no overrides (no argument at all) reads
    "gemini-2.5-pro" for [critic_model], "gemini-2.5-flash" for
    [worker_model] and 5 for [max_search_iterations], in whatever state the
    call is made. *)
Theorem default_holder_fields (s : state) :
  ∃ r s', ResearchConfiguration no_arguments s = (Ok r, s')
    ∧ getattr s' r critic_model = Ok (VStr "gemini-2.5-pro")
    ∧ getattr s' r worker_model = Ok (VStr "gemini-2.5-flash")
    ∧ getattr s' r max_search_iterations = Ok (VInt 5).
Proof.
  assert (Hb : bind no_arguments = Ok ∅) by reflexivity.
  pose proof (construct_bound _ _ s Hb) as Hc.
  eexists _, _. split; [exact Hc |].
  repeat split;
    (eapply constructed_default; [exact Hc | in_fields | reflexivity ..]).
Qed.

(** C2. When a call site supplies exactly one field [f], with value [v],
    the constructed holder reads [v] for [f] and the class default for each
    of the other two fields.  In particular the call with the single
    keyword [max_search_iterations=10] constructs, in any state, a holder
    reading "gemini-2.5-pro", "gemini-2.5-flash" and 10. *)
Theorem single_override_frame (c : call) (s s' : state) (r : loc)
        (f : string) (v : value) :
  ResearchConfiguration c s = (Ok r, s') →
  f ∈ fields →
  supplied c f = Some v →
  (∀ g, g ∈ fields → g ≠ f → supplied c g = None) →
  (getattr s' r f = Ok v
   ∧ ∀ g d, g ∈ fields → g ≠ f → class_attrs !! g = Some d →
            getattr s' r g = Ok d)
  ∧ ∀ s0, ∃ r0 s0',
      ResearchConfiguration ten_iterations_call s0 = (Ok r0, s0')
      ∧ getattr s0' r0 critic_model = Ok (VStr "gemini-2.5-pro")
      ∧ getattr s0' r0 worker_model = Ok (VStr "gemini-2.5-flash")
      ∧ getattr s0' r0 max_search_iterations = Ok (VInt 10).
Proof.
  intros Hc Hf Hv Hothers. split.
  - split; [by eapply constructed_supplied |].
    intros g d Hg Hne Hd. eapply constructed_default; eauto.
  - intros s0.
    set (c0 := ten_iterations_call).
    assert (Hb : ∃ b, bind c0 = Ok b) by (eexists; reflexivity).
    destruct Hb as [b Hb]. pose proof (construct_bound _ _ s0 Hb) as Hc0.
    eexists _, _. split; [exact Hc0 |]. repeat split.
    + eapply constructed_default; [exact Hc0 | | reflexivity ..].
      in_fields.
    + eapply constructed_default; [exact Hc0 | | reflexivity ..].
      in_fields.
    + eapply constructed_supplied; [exact Hc0 | | reflexivity].
      in_fields.
Qed.

Lemma single_override_frame_witness :
  ResearchConfiguration ten_iterations_call (fresh_process empty_world)
  = (Ok 0%nat,
     (ResearchConfiguration ten_iterations_call (fresh_process empty_world)).2)
  ∧ max_search_iterations ∈ fields
  ∧ supplied ten_iterations_call max_search_iterations = Some (VInt 10)
  ∧ (∀ g, g ∈ fields → g ≠ max_search_iterations →
          supplied ten_iterations_call g = None)
  ∧ getattr
      (ResearchConfiguration ten_iterations_call (fresh_process empty_world)).2
      0%nat max_search_iterations = Ok (VInt 10)
  ∧ getattr
      (ResearchConfiguration ten_iterations_call (fresh_process empty_world)).2
      0%nat critic_model = Ok (VStr "gemini-2.5-pro")
  ∧ getattr
      (ResearchConfiguration ten_iterations_call (fresh_process empty_world)).2
      0%nat worker_model = Ok (VStr "gemini-2.5-flash").
Proof.
  set (c := ten_iterations_call). set (s := fresh_process empty_world).
  set (s' := (ResearchConfiguration c s).2).
  assert (H1 : ResearchConfiguration c s = (Ok 0%nat, s')) by reflexivity.
  assert (H2 : max_search_iterations ∈ fields)
    by in_fields.
  assert (H3 : supplied c max_search_iterations = Some (VInt 10))
    by reflexivity.
  assert (H4 : ∀ g, g ∈ fields → g ≠ max_search_iterations →
               supplied c g = None).
  { intros g Hg Hne. apply elem_of_fields in Hg as [-> | [-> | ->]];
      [reflexivity | reflexivity | done]. }
  destruct (single_override_frame c s s' 0%nat max_search_iterations
              (VInt 10) H1 H2 H3 H4) as [[Hf Hrest] _].
  refine (conj H1 (conj H2 (conj H3 (conj H4 (conj Hf (conj _ _)))))).
  - apply Hrest; [in_fields | done | reflexivity].
  - apply Hrest; [in_fields | done | reflexivity].
Defined.

(** C3. When a call site supplies all three fields, strings [cm] and [wm]
    for the two models and the integer [n] for the iteration bound, the
    constructed holder reads exactly [cm], [wm] and [n]: the values are
    stored as given, whatever the strings and whatever the integer.  Such a
    holder exists for every choice: the call with the three keywords
    constructs one. *)
Theorem full_override_exact (c : call) (s s' : state) (r : loc)
        (cm wm : string) (n : Z) :
  ResearchConfiguration c s = (Ok r, s') →
  supplied c critic_model = Some (VStr cm) →
  supplied c worker_model = Some (VStr wm) →
  supplied c max_search_iterations = Some (VInt n) →
  (getattr s' r critic_model = Ok (VStr cm)
   ∧ getattr s' r worker_model = Ok (VStr wm)
   ∧ getattr s' r max_search_iterations = Ok (VInt n))
  ∧ ∃ r0 s0', ResearchConfiguration (keyword_call cm wm n) s = (Ok r0, s0').
Proof.
  intros Hc H1 H2 H3. split.
  - repeat split; eapply constructed_supplied; eauto;
      in_fields.
  - assert (Hb : ∃ b, bind (keyword_call cm wm n) = Ok b)
      by (eexists; reflexivity).
    destruct Hb as [b Hb]. eexists _, _. by apply construct_bound.
Qed.

Lemma full_override_exact_witness :
  ResearchConfiguration mixed_call (imported empty_world)
  = (Ok 1%nat, (ResearchConfiguration mixed_call (imported empty_world)).2)
  ∧ supplied mixed_call critic_model = Some (VStr "critic-x")
  ∧ supplied mixed_call worker_model = Some (VStr "")
  ∧ supplied mixed_call max_search_iterations
    = Some (VInt 1000000000000000000000000000000)
  ∧ getattr (ResearchConfiguration mixed_call (imported empty_world)).2
      1%nat critic_model = Ok (VStr "critic-x")
  ∧ getattr (ResearchConfiguration mixed_call (imported empty_world)).2
      1%nat worker_model = Ok (VStr "")
  ∧ getattr (ResearchConfiguration mixed_call (imported empty_world)).2
      1%nat max_search_iterations
    = Ok (VInt 1000000000000000000000000000000).
Proof.
  set (c := mixed_call). set (s := imported empty_world).
  set (s' := (ResearchConfiguration c s).2).
  assert (H0 : ResearchConfiguration c s = (Ok 1%nat, s')) by reflexivity.
  assert (H1 : supplied c critic_model = Some (VStr "critic-x"))
    by reflexivity.
  assert (H2 : supplied c worker_model = Some (VStr "")) by reflexivity.
  assert (H3 : supplied c max_search_iterations
               = Some (VInt 1000000000000000000000000000000))
    by reflexivity.
  destruct (full_override_exact c s s' 1%nat _ _ _ H0 H1 H2 H3)
    as [(Ha & Hb & Hc) _].
  exact (conj H0 (conj H1 (conj H2 (conj H3 (conj Ha (conj Hb Hc)))))).
Defined.

(** ** Totality of construction *)

(** The content of an argument is never looked at: a call site made of
    any three strings and integer is well typed, the empty string and the
    integers below one included. *)
Lemma well_typed_any_content (cm wm : string) (n : Z) :
  well_typed (keyword_call cm wm n) = true
  ∧ well_typed (Call [VStr cm; VStr wm; VInt n] []) = true.
Proof. split; reflexivity. Qed.

(** C4. Construction is total on well-typed call sites: whenever the call
    site fits the signature and each argument has the annotated type of its
    parameter, the call returns a new holder (the next free identity) and
    raises nothing.  No condition bears on the content of the arguments; the
    binding depends only on the shape of the call site. *)
Theorem construction_total (c : call) (s : state) :
  well_typed c = true →
  ∃ s', ResearchConfiguration c s = (Ok (length (heap s)), s')
        ∧ length (heap s') = S (length (heap s)).
Proof.
  unfold well_typed. rewrite !andb_true_iff. intros [[Hwf _] _].
  destruct (well_formed_bind c Hwf) as [b Hb].
  eexists. split; [by apply construct_bound |].
  unfold set_heap. cbn [heap]. rewrite length_app. cbn. lia.
Qed.

Lemma construction_total_witness :
  well_typed empty_negative_call = true
  ∧ ∃ s', ResearchConfiguration empty_negative_call (imported empty_world)
          = (Ok (length (heap (imported empty_world))), s')
          ∧ length (heap s') = S (length (heap (imported empty_world))).
Proof.
  split; [reflexivity |].
  apply (construction_total empty_negative_call (imported empty_world)).
  reflexivity.
Defined.

(** What construction accepts is exactly what fits the signature. *)
Lemma construction_succeeds_iff (c : call) (s : state) :
  (∃ r s', ResearchConfiguration c s = (Ok r, s')) ↔ well_formed c = true.
Proof.
  split.
  - intros (r & s' & Hc). apply construct_inv in Hc as (b & Hb & _).
    by eapply bind_well_formed.
  - intros Hwf. destruct (well_formed_bind c Hwf) as [b Hb].
    eexists _, _. by apply construct_bound.
Qed.

(** ** Reading and writing attributes *)

Lemma getattr_field_total (s : state) (r : loc) (f : string) :
  (r < length (heap s))%nat → f ∈ fields → ∃ v, getattr s r f = Ok v.
Proof.
  intros Hr Hf. unfold getattr.
  destruct (lookup_lt_is_Some_2 _ _ Hr) as [o ->].
  destruct (o !! f); [eauto |].
  destruct (class_attrs_field f Hf) as [d ->]. eauto.
Qed.

Lemma getattr_append (s : state) (o : obj) (r : loc) (name : string) :
  (r < length (heap s))%nat →
  getattr (set_heap (heap s ++ [o]) s) r name = getattr s r name.
Proof.
  intros Hr. unfold getattr, set_heap. cbn [heap].
  by rewrite lookup_app_l.
Qed.

Lemma construct_frame (c : call) (s : state) (r : loc) (name : string) :
  (r < length (heap s))%nat →
  getattr (ResearchConfiguration c s).2 r name = getattr s r name.
Proof.
  intros Hr. unfold ResearchConfiguration.
  destruct (bind c); [| done]. by apply getattr_append.
Qed.

Lemma setattr_ok (r : loc) (name : string) (v : value) (s : state) :
  (r < length (heap s))%nat → (setattr r name v s).1 = Ok tt.
Proof.
  intros Hr. unfold setattr.
  by destruct (lookup_lt_is_Some_2 _ _ Hr) as [o ->].
Qed.

Lemma getattr_setattr_eq (r : loc) (name : string) (v : value) (s : state) :
  (r < length (heap s))%nat →
  getattr (setattr r name v s).2 r name = Ok v.
Proof.
  intros Hr. unfold setattr.
  destruct (lookup_lt_is_Some_2 _ _ Hr) as [o Ho]. rewrite Ho.
  unfold getattr, set_heap. cbn [snd heap].
  rewrite list_lookup_insert_eq by done. by rewrite lookup_insert_eq.
Qed.

Lemma getattr_setattr_ne (r r' : loc) (name name' : string) (v : value)
      (s : state) :
  (r', name') ≠ (r, name) →
  getattr (setattr r name v s).2 r' name' = getattr s r' name'.
Proof.
  intros Hne. unfold setattr.
  destruct (heap s !! r) as [o |] eqn:Ho; [| done].
  unfold getattr, set_heap. cbn [snd heap].
  destruct (decide (r = r')) as [<- | Hr].
  - rewrite list_lookup_insert_eq by (by eapply lookup_lt_Some).
    rewrite Ho. rewrite lookup_insert_ne; [done |]. congruence.
  - by rewrite list_lookup_insert_ne.
Qed.

(** ** Operations *)

Lemma exec_reads (o : op) (s : state) : reads o = true → (exec o s).2 = s.
Proof. by destruct o. Qed.

Lemma run_reads (ops : list op) (s : state) :
  forallb reads ops = true → run ops s = s.
Proof.
  revert s. induction ops as [| o ops IH]; intros s H; [done |].
  cbn in H. apply andb_true_iff in H as [Ho Hops].
  unfold run in *. cbn [foldl]. rewrite (exec_reads o s Ho). by apply IH.
Qed.


Lemma exec_silent_frame (o : op) (s : state) (r : loc) (name : string) :
  writes o = false → (r < length (heap s))%nat →
  getattr (exec o s).2 r name = getattr s r name.
Proof.
  intros Hw Hr. destruct o as [c | | | |]; try done.
  cbn. pose proof (construct_frame c s r name Hr) as H.
  by destruct (ResearchConfiguration c s).
Qed.


Lemma exec_globals (o : op) (s : state) : globals (exec o s).2 = globals s.
Proof.
  destruct o as [c | r name | r name v | r name | a b]; cbn; try done.
  - unfold ResearchConfiguration. by destruct (bind c).
  - unfold setattr. by destruct (heap s !! r).
  - unfold delattr. destruct (heap s !! r) as [o |]; [| done].
    by destruct (o !! name).
Qed.

Lemma run_globals (ops : list op) (s : state) :
  globals (run ops s) = globals s.
Proof.
  revert s. induction ops as [| o ops IH]; intros s; [done |].
  unfold run in *. cbn [foldl]. by rewrite IH, exec_globals.
Qed.

(** ** Reads *)

(** C5. Reading a field of a constructed holder returns a value, and
    reading it again, after that read and after any number of further
    reads and comparisons of any holders, returns the same value: a
    read leaves the state as it was. *)
Theorem repeated_reads_stable (s : state) (r : loc) (f : string)
        (ops : list op) :
  (r < length (heap s))%nat →
  f ∈ fields →
  forallb reads ops = true →
  ∃ v, exec (GetAttr r f) s = (Read (Ok v), s)
       ∧ exec (GetAttr r f) (run (GetAttr r f :: ops) s) = (Read (Ok v), s).
Proof.
  intros Hr Hf Hops. destruct (getattr_field_total s r f Hr Hf) as [v Hv].
  exists v. rewrite run_reads by (cbn; by rewrite Hops).
  cbn. by rewrite Hv.
Qed.

Lemma repeated_reads_stable_witness :
  (0 < length (heap two_holders))%nat
  ∧ max_search_iterations ∈ fields
  ∧ forallb reads
      [GetAttr 1%nat worker_model; Compare 0%nat 1%nat;
       GetAttr 0%nat max_search_iterations] = true
  ∧ ∃ v, exec (GetAttr 0%nat max_search_iterations) two_holders
         = (Read (Ok v), two_holders)
         ∧ exec (GetAttr 0%nat max_search_iterations)
             (run (GetAttr 0%nat max_search_iterations
                   :: [GetAttr 1%nat worker_model; Compare 0%nat 1%nat;
                       GetAttr 0%nat max_search_iterations]) two_holders)
           = (Read (Ok v), two_holders).
Proof.
  assert (H1 : (0 < length (heap two_holders))%nat) by (vm_compute; lia).
  assert (H2 : max_search_iterations ∈ fields)
    by in_fields.
  assert (H3 : forallb reads
                 [GetAttr 1%nat worker_model; Compare 0%nat 1%nat;
                  GetAttr 0%nat max_search_iterations] = true)
    by reflexivity.
  exact (conj H1 (conj H2 (conj H3
           (repeated_reads_stable two_holders 0%nat max_search_iterations
              _ H1 H2 H3)))).
Defined.

(** ** Mutation *)

(** C6 as stated fails.  The class is not frozen: on the instance bound to
    [config], which reads 5 for [max_search_iterations], the assignment
    [config.max_search_iterations = 10] raises nothing and the field reads
    10 afterwards. *)
Lemma assignment_changes_field :
  (0 < length (heap (imported empty_world)))%nat
  ∧ max_search_iterations ∈ fields
  ∧ getattr (imported empty_world) 0%nat max_search_iterations = Ok (VInt 5)
  ∧ (exec (SetAttr 0%nat max_search_iterations (VInt 10))
       (imported empty_world)).1 = Done (Ok tt)
  ∧ getattr
      (exec (SetAttr 0%nat max_search_iterations (VInt 10))
         (imported empty_world)).2 0%nat max_search_iterations
    = Ok (VInt 10)
  ∧ getattr
      (exec (SetAttr 0%nat max_search_iterations (VInt 10))
         (imported empty_world)).2 0%nat max_search_iterations
    ≠ getattr (imported empty_world) 0%nat max_search_iterations.
Proof.
  split; [vm_compute; lia |].
  split; [in_fields |].
  split; [reflexivity |]. split; [reflexivity |]. split; [reflexivity |].
  discriminate.
Qed.

(** C6, as the code has it.  For a constructed holder [r] and a field [f]:
    every operation other than an attribute assignment or deletion
    (construction of a holder, attribute reads, comparisons) leaves [f] of
    [r] reading what it read before; an assignment [r.f = v] raises nothing,
    makes [f] of [r] read [v], and leaves every other attribute of every
    holder reading what it read before. *)
Theorem fields_change_only_by_assignment (o : op) (s : state) (r : loc)
        (f : string) :
  (r < length (heap s))%nat →
  f ∈ fields →
  writes o = false →
  getattr (exec o s).2 r f = getattr s r f
  ∧ ∀ v, (exec (SetAttr r f v) s).1 = Done (Ok tt)
         ∧ getattr (exec (SetAttr r f v) s).2 r f = Ok v
         ∧ ∀ r' name, (r', name) ≠ (r, f) →
             getattr (exec (SetAttr r f v) s).2 r' name = getattr s r' name.
Proof.
  intros Hr Hf Hw. split.
  - by apply exec_silent_frame.
  - intros v. cbn [exec].
    pose proof (setattr_ok r f v s Hr) as Hok.
    pose proof (getattr_setattr_eq r f v s Hr) as Heq.
    pose proof (λ r' name, getattr_setattr_ne r r' f name v s) as Hne.
    destruct (setattr r f v s) as [x s1]. cbn [fst snd] in *.
    rewrite Hok. auto.
Qed.

Lemma fields_change_only_by_assignment_witness :
  (0 < length (heap two_holders))%nat
  ∧ worker_model ∈ fields
  ∧ writes (New ten_iterations_call) = false
  ∧ getattr (exec (New ten_iterations_call) two_holders).2 0%nat worker_model
    = getattr two_holders 0%nat worker_model
  ∧ ∀ v, (exec (SetAttr 0%nat worker_model v) two_holders).1 = Done (Ok tt)
         ∧ getattr (exec (SetAttr 0%nat worker_model v) two_holders).2
             0%nat worker_model = Ok v
         ∧ ∀ r' name, (r', name) ≠ (0%nat, worker_model) →
             getattr (exec (SetAttr 0%nat worker_model v) two_holders).2
               r' name
             = getattr two_holders r' name.
Proof.
  assert (H1 : (0 < length (heap two_holders))%nat) by (vm_compute; lia).
  assert (H2 : worker_model ∈ fields) by in_fields.
  assert (H3 : writes (New ten_iterations_call) = false) by reflexivity.
  exact (conj H1 (conj H2 (conj H3
           (fields_change_only_by_assignment (New ten_iterations_call)
              two_holders 0%nat worker_model H1 H2 H3)))).
Defined.

(** ** Purity and determinism of construction *)

(** C7. A construction leaves the environment, the files and the network
    traffic as they were, rebinds no global and changes no attribute of an
    existing holder; and its outcome depends on the call site alone: in any
    two states, whatever their outside worlds and heaps, the same call
    either raises the same exception in both or returns in both a holder,
    and the two holders read the same for every attribute, the three
    fields included. *)
Theorem construction_pure_deterministic (c : call) (s1 s2 : state) :
  (outside (ResearchConfiguration c s1).2 = outside s1
   ∧ globals (ResearchConfiguration c s1).2 = globals s1
   ∧ ∀ r name, (r < length (heap s1))%nat →
       getattr (ResearchConfiguration c s1).2 r name = getattr s1 r name)
  ∧ match (ResearchConfiguration c s1).1, (ResearchConfiguration c s2).1 with
    | Ok r1, Ok r2 =>
        ∀ name, getattr (ResearchConfiguration c s1).2 r1 name
                = getattr (ResearchConfiguration c s2).2 r2 name
    | Raise e1, Raise e2 => e1 = e2
    | _, _ => False
    end.
Proof.
  split.
  - repeat split.
    + unfold ResearchConfiguration. by destruct (bind c).
    + unfold ResearchConfiguration. by destruct (bind c).
    + intros r name Hr. by apply construct_frame.
  - unfold ResearchConfiguration. destruct (bind c) as [b | e]; cbn; [| done].
    intros name. unfold getattr, set_heap. cbn [heap].
    by rewrite !list_lookup_middle.
Qed.

(** ** Initialisation *)

Lemma construct_length (c : call) (s s' : state) (r : loc) :
  ResearchConfiguration c s = (Ok r, s') →
  r = length (heap s) ∧ length (heap s') = S (length (heap s)).
Proof.
  intros (b & _ & -> & ->)%construct_inv. split; [done |].
  unfold set_heap. cbn [heap]. rewrite length_app. cbn. lia.
Qed.






(** ** The module-level instance *)

(** C9. Importing the module, in any outside world, binds the global
    [config] to a holder; it is the only object the import creates, it was
    constructed with no argument, and it reads "gemini-2.5-pro",
    "gemini-2.5-flash" and 5.  The import leaves the outside world as it
    found it, and whatever clients do afterwards [config] stays bound to
    that same holder: every reader shares the one instance. *)
Theorem config_default_instance (w : world) :
  globals (imported w) !! config = Some 0%nat
  ∧ length (heap (imported w)) = 1%nat
  ∧ imported w
    = set_global config 0%nat
        (ResearchConfiguration no_arguments (fresh_process w)).2
  ∧ getattr (imported w) 0%nat critic_model = Ok (VStr "gemini-2.5-pro")
  ∧ getattr (imported w) 0%nat worker_model = Ok (VStr "gemini-2.5-flash")
  ∧ getattr (imported w) 0%nat max_search_iterations = Ok (VInt 5)
  ∧ outside (imported w) = w
  ∧ ∀ ops, globals (run ops (imported w)) !! config = Some 0%nat.
Proof.
  repeat split. intros ops. by rewrite run_globals.
Qed.

(** ** Equality *)

Lemma value_eqb_eq (a b : value) : value_eqb a b = true ↔ a = b.
Proof.
  destruct a as [s | m], b as [t | n]; cbn;
    rewrite ?bool_decide_eq_true, ?Z.eqb_eq; split; congruence.
Qed.

Lemma tuple_eqb_eq (x y : list value) : tuple_eqb x y = true ↔ x = y.
Proof.
  revert y. induction x as [| a x IH]; intros [| b y]; cbn; try done.
  rewrite andb_true_iff, value_eqb_eq, IH. split.
  - by intros [-> ->].
  - by intros [= -> ->].
Qed.

Lemma astuple_total (s : state) (r : loc) :
  (r < length (heap s))%nat →
  ∃ c w n, getattr s r critic_model = Ok c
           ∧ getattr s r worker_model = Ok w
           ∧ getattr s r max_search_iterations = Ok n
           ∧ astuple s r = Ok [c; w; n].
Proof.
  intros Hr.
  destruct (getattr_field_total s r critic_model Hr) as [c Hc];
    [in_fields |].
  destruct (getattr_field_total s r worker_model Hr) as [w Hw];
    [in_fields |].
  destruct (getattr_field_total s r max_search_iterations Hr) as [n Hn];
    [in_fields |].
  exists c, w, n. unfold astuple. by rewrite Hc, Hw, Hn.
Qed.

(** C10. Comparing two holders with [==] raises nothing and answers
    [True] exactly when the two read the same for each of the three
    fields; identity and any other attribute play no part. *)
Theorem eq_structural (s : state) (a b : loc) :
  (a < length (heap s))%nat →
  (b < length (heap s))%nat →
  (eq s a b = Ok true ∨ eq s a b = Ok false)
  ∧ (eq s a b = Ok true ↔
     getattr s a critic_model = getattr s b critic_model
     ∧ getattr s a worker_model = getattr s b worker_model
     ∧ getattr s a max_search_iterations = getattr s b max_search_iterations).
Proof.
  intros Ha Hb.
  destruct (astuple_total s a Ha) as (c1 & w1 & n1 & Hc1 & Hw1 & Hn1 & Ht1).
  destruct (astuple_total s b Hb) as (c2 & w2 & n2 & Hc2 & Hw2 & Hn2 & Ht2).
  unfold eq. rewrite Ht1, Ht2, Hc1, Hw1, Hn1, Hc2, Hw2, Hn2. split.
  - destruct (tuple_eqb _ _); auto.
  - split.
    + intros H.
      assert (H' : tuple_eqb [c1; w1; n1] [c2; w2; n2] = true) by congruence.
      apply tuple_eqb_eq in H'. by injection H' as -> -> ->.
    + intros ([= ->] & [= ->] & [= ->]). f_equal. by apply tuple_eqb_eq.
Qed.

Lemma eq_structural_witness :
  (0 < length (heap two_holders))%nat
  ∧ (1 < length (heap two_holders))%nat
  ∧ (eq two_holders 0%nat 1%nat = Ok true
     ∨ eq two_holders 0%nat 1%nat = Ok false)
  ∧ (eq two_holders 0%nat 1%nat = Ok true ↔
     getattr two_holders 0%nat critic_model
     = getattr two_holders 1%nat critic_model
     ∧ getattr two_holders 0%nat worker_model
       = getattr two_holders 1%nat worker_model
     ∧ getattr two_holders 0%nat max_search_iterations
       = getattr two_holders 1%nat max_search_iterations).
Proof.
  assert (H0 : (0 < length (heap two_holders))%nat) by (vm_compute; lia).
  assert (H1 : (1 < length (heap two_holders))%nat) by (vm_compute; lia).
  exact (conj H0 (conj H1 (eq_structural two_holders 0%nat 1%nat H0 H1))).
Defined.

(** * Further properties of the generated methods *)

(** ** When construction raises *)

Lemma bind_keywords_raises (kws : list (string * value))
      (b : gmap string value) (e : exn) :
  bind_keywords kws b = Raise e → e = TypeError.
Proof.
  revert b. induction kws as [| [k v] rest IH]; intros b; cbn; [done |].
  case_decide; [| congruence].
  destruct (b !! k); [congruence | apply IH].
Qed.

Lemma bind_raises (c : call) (e : exn) : bind c = Raise e → e = TypeError.
Proof.
  unfold bind, bind_positional. case_decide; [| congruence].
  apply bind_keywords_raises.
Qed.

Lemma forallb_false_elem {A} (p : A → bool) (l : list A) :
  forallb p l = false ↔ ∃ x, x ∈ l ∧ p x = false.
Proof.
  induction l as [| a l IH]; cbn.
  - split; [done |]. intros (x & Hx & _). by apply elem_of_nil in Hx.
  - rewrite andb_false_iff, IH. split.
    + intros [Ha | (x & Hx & Hp)]; [exists a | exists x];
        (split; [| done]); set_solver.
    + intros (x & Hx & Hp). apply elem_of_cons in Hx as [-> | Hx]; eauto.
Qed.

Lemma fields_NoDup : NoDup fields.
Proof.
  destruct fields_distinct as (? & ? & ?).
  unfold fields. repeat (apply NoDup_cons; split; [set_solver |]).
  constructor.
Qed.

(** A keyword can be bound when it names a parameter that no positional
    argument has taken. *)
Lemma elem_of_drop_fields (n : nat) (k : string) :
  k ∈ drop n fields ↔ k ∈ fields ∧ k ∉ take n fields.
Proof.
  pose proof fields_NoDup as Hnd. rewrite <- (take_drop n fields) in Hnd.
  apply NoDup_app in Hnd as (_ & Hdisj & _).
  rewrite <- (take_drop n fields) at 2. rewrite elem_of_app. split.
  - intros Hk. split; [by right |]. intros Ht. by apply (Hdisj k).
  - intros [[Ht | Hd] Hnt]; done.
Qed.

Lemma well_formed_false (c : call) :
  well_formed c = false ↔
  (length fields < length (args c))%nat
  ∨ ¬ NoDup (kwargs c).*1
  ∨ (∃ k, k ∈ (kwargs c).*1 ∧ k ∉ fields)
  ∨ (∃ k, k ∈ (kwargs c).*1 ∧ k ∈ take (length (args c)) fields).
Proof.
  unfold well_formed.
  rewrite !andb_false_iff, !bool_decide_eq_false, forallb_false_elem.
  split.
  - intros [[Hlen | Hnd] | (k & Hk & Hd)].
    + left. lia.
    + right. by left.
    + right. right. apply bool_decide_eq_false in Hd.
      rewrite elem_of_drop_fields in Hd.
      destruct (decide (k ∈ fields)) as [Hf | Hf]; [| left; eauto].
      right. exists k. split; [done |].
      destruct (decide (k ∈ take (length (args c)) fields)); [done |].
      by destruct Hd.
  - intros [Hlen | [Hnd | [(k & Hk & Hf) | (k & Hk & Ht)]]].
    + left. left. lia.
    + left. by right.
    + right. exists k. split; [done |]. apply bool_decide_eq_false.
      rewrite elem_of_drop_fields. naive_solver.
    + right. exists k. split; [done |]. apply bool_decide_eq_false.
      rewrite elem_of_drop_fields. naive_solver.
Qed.

(** X1. Calling the class either returns a new holder or raises
    [TypeError], and in that case changes nothing.  It raises exactly when
    the call site does not fit the signature of the generated [__init__]:
    more than three positional arguments, a keyword arriving twice (as
    when two unpacked dictionaries share a key), a keyword that names no
    field, or a keyword for a field already given by position.  The values
    passed play no part. *)
Theorem construction_raises_iff (c : call) (s : state) :
  (ResearchConfiguration c s = (Raise TypeError, s)
   ∨ ∃ s', ResearchConfiguration c s = (Ok (length (heap s)), s'))
  ∧ (ResearchConfiguration c s = (Raise TypeError, s) ↔
     (length fields < length (args c))%nat
     ∨ ¬ NoDup (kwargs c).*1
     ∨ (∃ k, k ∈ (kwargs c).*1 ∧ k ∉ fields)
     ∨ (∃ k, k ∈ (kwargs c).*1 ∧ k ∈ take (length (args c)) fields)).
Proof.
  rewrite <- well_formed_false. unfold ResearchConfiguration.
  destruct (bind c) as [b | e] eqn:Hb.
  - rewrite (bind_well_formed c b Hb). split; [right; eauto |].
    split; discriminate.
  - rewrite (bind_raises c e Hb). split; [by left |].
    split; [| done]. intros _.
    destruct (well_formed c) eqn:Hwf; [| done].
    destruct (well_formed_bind c Hwf) as [b' Hb']. congruence.
Qed.

(** ** Equality as a relation *)

Lemma tuple_eqb_sym (x y : list value) : tuple_eqb x y = tuple_eqb y x.
Proof.
  destruct (tuple_eqb x y) eqn:Hxy, (tuple_eqb y x) eqn:Hyx; try done.
  - apply tuple_eqb_eq in Hxy as ->.
    by rewrite (proj2 (tuple_eqb_eq y y) eq_refl) in Hyx.
  - apply tuple_eqb_eq in Hyx as ->.
    by rewrite (proj2 (tuple_eqb_eq x x) eq_refl) in Hxy.
Qed.

Lemma eq_true_astuple (s : state) (a b : loc) :
  (a < length (heap s))%nat → (b < length (heap s))%nat →
  eq s a b = Ok true ↔ astuple s a = astuple s b.
Proof.
  intros Ha Hb.
  destruct (astuple_total s a Ha) as (c1 & w1 & n1 & _ & _ & _ & Ht1).
  destruct (astuple_total s b Hb) as (c2 & w2 & n2 & _ & _ & _ & Ht2).
  unfold eq. rewrite Ht1, Ht2. split.
  - intros H. f_equal. apply tuple_eqb_eq. congruence.
  - intros [= -> -> ->]. f_equal. by apply tuple_eqb_eq.
Qed.

(** X2. On holders, [==] is an equivalence: a holder equals itself, the
    answer does not depend on which operand comes first, and two holders
    equal to a third are equal. *)
Theorem eq_equivalence (s : state) (a b c : loc) :
  (a < length (heap s))%nat →
  (b < length (heap s))%nat →
  (c < length (heap s))%nat →
  eq s a a = Ok true
  ∧ eq s a b = eq s b a
  ∧ (eq s a b = Ok true → eq s b c = Ok true → eq s a c = Ok true).
Proof.
  intros Ha Hb Hc. repeat split.
  - by apply eq_true_astuple.
  - destruct (astuple_total s a Ha) as (c1 & w1 & n1 & _ & _ & _ & Ht1).
    destruct (astuple_total s b Hb) as (c2 & w2 & n2 & _ & _ & _ & Ht2).
    unfold eq. rewrite Ht1, Ht2. f_equal. apply tuple_eqb_sym.
  - rewrite !eq_true_astuple by done. congruence.
Qed.

Lemma eq_equivalence_witness :
  (0 < length (heap two_holders))%nat
  ∧ (1 < length (heap two_holders))%nat
  ∧ (0 < length (heap two_holders))%nat
  ∧ eq two_holders 0%nat 0%nat = Ok true
  ∧ eq two_holders 0%nat 1%nat = eq two_holders 1%nat 0%nat
  ∧ (eq two_holders 0%nat 1%nat = Ok true →
     eq two_holders 1%nat 0%nat = Ok true →
     eq two_holders 0%nat 0%nat = Ok true).
Proof.
  assert (H0 : (0 < length (heap two_holders))%nat) by (vm_compute; lia).
  assert (H1 : (1 < length (heap two_holders))%nat) by (vm_compute; lia).
  exact (conj H0 (conj H1 (conj H0
           (eq_equivalence two_holders 0%nat 1%nat 0%nat H0 H1 H0)))).
Defined.

(** ** Call sites that say the same thing *)

Lemma eq_fields_agree (s : state) (a b : loc) :
  (a < length (heap s))%nat → (b < length (heap s))%nat →
  (∀ f, f ∈ fields → getattr s a f = getattr s b f) →
  eq s a b = Ok true.
Proof.
  intros Ha Hb Hf. apply eq_true_astuple; [done .. |]. unfold astuple.
  by rewrite !Hf by in_fields.
Qed.

Lemma constructed_getattr (c : call) (s s' : state) (r : loc) (f : string) :
  ResearchConfiguration c s = (Ok r, s') → f ∈ fields →
  ∃ v, getattr s' r f = Ok v
       ∧ match supplied c f with
         | Some u => Some u
         | None => class_attrs !! f
         end = Some v.
Proof.
  intros Hc Hf. pose proof (constructed_field _ _ _ _ _ Hc Hf) as Hi.
  destruct (class_attrs_field f Hf) as [d Hd].
  destruct (supplied c f) as [u |]; [exists u | exists d; rewrite Hd in Hi];
    (split; [by apply getattr_instance | done]).
Qed.

(** X3. Two call sites that supply the same value for each field, however
    they split the arguments between positions and keywords and in whatever
    order the keywords come, construct two distinct holders that compare
    equal. *)
Theorem equal_arguments_equal_holders (c1 c2 : call) (s s1 s2 : state)
        (r1 r2 : loc) :
  ResearchConfiguration c1 s = (Ok r1, s1) →
  ResearchConfiguration c2 s1 = (Ok r2, s2) →
  (∀ f, f ∈ fields → supplied c1 f = supplied c2 f) →
  r1 ≠ r2 ∧ eq s2 r1 r2 = Ok true.
Proof.
  intros H1 H2 Hsame.
  destruct (construct_length _ _ _ _ H1) as [-> Hl1].
  destruct (construct_length _ _ _ _ H2) as [-> Hl2].
  split; [lia |]. apply eq_fields_agree; [lia .. |]. intros f Hf.
  destruct (constructed_getattr _ _ _ _ f H1 Hf) as (v1 & Hg1 & Hv1).
  destruct (constructed_getattr _ _ _ _ f H2 Hf) as (v2 & Hg2 & Hv2).
  pose proof (construct_frame c2 s1 (length (heap s)) f) as Hfr.
  rewrite H2 in Hfr. cbn [snd] in Hfr. rewrite Hfr by lia.
  rewrite Hg1, Hg2. rewrite (Hsame f Hf) in Hv1. congruence.
Qed.

Lemma equal_arguments_equal_holders_witness :
  ResearchConfiguration keywords_example (imported empty_world)
  = (Ok 1%nat,
     (ResearchConfiguration keywords_example (imported empty_world)).2)
  ∧ ResearchConfiguration positional_example
      (ResearchConfiguration keywords_example (imported empty_world)).2
    = (Ok 2%nat,
       (ResearchConfiguration positional_example
          (ResearchConfiguration keywords_example
             (imported empty_world)).2).2)
  ∧ (∀ f, f ∈ fields →
       supplied keywords_example f = supplied positional_example f)
  ∧ 1%nat ≠ 2%nat
  ∧ eq (ResearchConfiguration positional_example
          (ResearchConfiguration keywords_example
             (imported empty_world)).2).2 1%nat 2%nat = Ok true.
Proof.
  assert (H1 : ResearchConfiguration keywords_example (imported empty_world)
               = (Ok 1%nat,
                  (ResearchConfiguration keywords_example
                     (imported empty_world)).2)) by reflexivity.
  assert (H2 : ResearchConfiguration positional_example
                 (ResearchConfiguration keywords_example
                    (imported empty_world)).2
               = (Ok 2%nat,
                  (ResearchConfiguration positional_example
                     (ResearchConfiguration keywords_example
                        (imported empty_world)).2).2)) by reflexivity.
  assert (H3 : ∀ f, f ∈ fields →
                 supplied keywords_example f = supplied positional_example f).
  { intros f Hf. apply elem_of_fields in Hf as [-> | [-> | ->]];
      reflexivity. }
  exact (conj H1 (conj H2 (conj H3
           (equal_arguments_equal_holders _ _ _ _ _ _ _ H1 H2 H3)))).
Defined.

(** X4. Positional arguments fill [critic_model], [worker_model] and
    [max_search_iterations] in that order: for any three values, the call
    giving them by position constructs a holder that reads them in that
    order, and it compares equal to the holder constructed next from the
    same values given by keyword in another order. *)
Theorem positional_matches_keywords (a b n : value) (s : state) :
  ∃ s1 s2,
    ResearchConfiguration (positional_call a b n) s
    = (Ok (length (heap s)), s1)
    ∧ ResearchConfiguration (shuffled_keyword_call a b n) s1
      = (Ok (S (length (heap s))), s2)
    ∧ getattr s1 (length (heap s)) critic_model = Ok a
    ∧ getattr s1 (length (heap s)) worker_model = Ok b
    ∧ getattr s1 (length (heap s)) max_search_iterations = Ok n
    ∧ eq s2 (length (heap s)) (S (length (heap s))) = Ok true.
Proof.
  assert (Hb1 : ∃ m, bind (positional_call a b n) = Ok m)
    by (eexists; reflexivity).
  assert (Hb2 : ∃ m, bind (shuffled_keyword_call a b n) = Ok m)
    by (eexists; reflexivity).
  destruct Hb1 as [m1 Hb1], Hb2 as [m2 Hb2].
  pose proof (construct_bound _ _ s Hb1) as H1.
  set (s1 := set_heap (heap s ++ [init m1 ∅]) s) in *.
  pose proof (construct_bound _ _ s1 Hb2) as H2.
  destruct (construct_length _ _ _ _ H1) as [_ Hl1].
  rewrite Hl1 in H2.
  eexists _, _. split; [exact H1 |]. split; [exact H2 |].
  split; [| split; [| split]].
  - eapply constructed_supplied; [exact H1 | in_fields | reflexivity].
  - eapply constructed_supplied; [exact H1 | in_fields | reflexivity].
  - eapply constructed_supplied; [exact H1 | in_fields | reflexivity].
  - assert (Hsame : ∀ f, f ∈ fields →
                      supplied (positional_call a b n) f
                      = supplied (shuffled_keyword_call a b n) f).
    { intros f Hf. apply elem_of_fields in Hf as [-> | [-> | ->]];
        reflexivity. }
    destruct (construct_length _ _ _ _ H2) as [_ Hl2].
    apply eq_fields_agree; [lia .. |]. intros f Hf.
    destruct (constructed_getattr _ _ _ _ f H1 Hf) as (v1 & Hg1 & Hv1).
    destruct (constructed_getattr _ _ _ _ f H2 Hf) as (v2 & Hg2 & Hv2).
    pose proof (construct_frame (shuffled_keyword_call a b n) s1
                  (length (heap s)) f) as Hfr.
    rewrite H2 in Hfr. cbn [snd] in Hfr. rewrite Hfr by lia.
    rewrite Hg1, Hg2. rewrite (Hsame f Hf) in Hv1. congruence.
Qed.

(** ** Deleting a field *)

(** X5. Deleting a field of a freshly constructed holder raises nothing,
    and the field then reads the class default, whatever was supplied for
    it; every other field of every holder reads what it read before.
    Deleting the same field a second time raises [AttributeError] and
    changes nothing. *)
Theorem delete_restores_default (c : call) (s s' : state) (r : loc)
        (f : string) :
  ResearchConfiguration c s = (Ok r, s') →
  f ∈ fields →
  ∃ d s'',
    class_attrs !! f = Some d
    ∧ exec (DelAttr r f) s' = (Done (Ok tt), s'')
    ∧ getattr s'' r f = Ok d
    ∧ (∀ r' g, g ∈ fields → (r', g) ≠ (r, f) →
         getattr s'' r' g = getattr s' r' g)
    ∧ exec (DelAttr r f) s'' = (Done (Raise AttributeError), s'').
Proof.
  intros Hc Hf. destruct (class_attrs_field f Hf) as [d Hd].
  pose proof (constructed_field _ _ _ _ f Hc Hf) as Hi.
  assert (Hsome : is_Some (instance_attr s' r f)).
  { rewrite Hi. destruct (supplied c f); [eauto | by rewrite Hd]. }
  destruct Hsome as [v Hv]. unfold instance_attr in Hv.
  destruct (heap s' !! r) as [o |] eqn:Ho; [| done]. cbn in Hv.
  exists d, (set_heap (<[r := delete f o]> (heap s')) s').
  assert (Hr : (r < length (heap s'))%nat) by (by eapply lookup_lt_Some).
  split; [done |]. split; [| split; [| split]].
  - cbn. unfold delattr. by rewrite Ho, Hv.
  - unfold getattr, set_heap. cbn [heap].
    rewrite list_lookup_insert_eq by done.
    by rewrite lookup_delete_eq, Hd.
  - intros r' g Hg Hne. unfold getattr, set_heap. cbn [heap].
    destruct (decide (r = r')) as [<- | Hrr].
    + rewrite list_lookup_insert_eq by done. rewrite Ho.
      rewrite lookup_delete_ne; [done |]. congruence.
    + by rewrite list_lookup_insert_ne.
  - cbn. unfold delattr, set_heap. cbn [heap].
    rewrite list_lookup_insert_eq by done.
    by rewrite lookup_delete_eq.
Qed.

Lemma delete_restores_default_witness :
  ResearchConfiguration ten_iterations_call (imported empty_world)
  = (Ok 1%nat,
     (ResearchConfiguration ten_iterations_call (imported empty_world)).2)
  ∧ max_search_iterations ∈ fields
  ∧ ∃ d s'',
      class_attrs !! max_search_iterations = Some d
      ∧ exec (DelAttr 1%nat max_search_iterations)
          (ResearchConfiguration ten_iterations_call
             (imported empty_world)).2 = (Done (Ok tt), s'')
      ∧ getattr s'' 1%nat max_search_iterations = Ok d
      ∧ (∀ r' g, g ∈ fields → (r', g) ≠ (1%nat, max_search_iterations) →
           getattr s'' r' g
           = getattr
               (ResearchConfiguration ten_iterations_call
                  (imported empty_world)).2 r' g)
      ∧ exec (DelAttr 1%nat max_search_iterations) s''
        = (Done (Raise AttributeError), s'').
Proof.
  assert (H1 : ResearchConfiguration ten_iterations_call
                 (imported empty_world)
               = (Ok 1%nat,
                  (ResearchConfiguration ten_iterations_call
                     (imported empty_world)).2)) by reflexivity.
  assert (H2 : max_search_iterations ∈ fields) by in_fields.
  exact (conj H1 (conj H2
           (delete_restores_default _ _ _ _ max_search_iterations H1 H2))).
Defined.
